(** * MetadatosArchivosSheets: the Cloud Storage event forwarder

    A shallow embedding of [src/main.py].  The file has one handler,
    [procesar_archivo_gcs], which reads a CloudEvent, validates the
    metadata of the uploaded object, logs it and forwards it with one
    HTTP POST to an Apps Script web application.

    Modelling choices.
    - Python values of the event are the JSON universe: [None], booleans,
      integers, floats, strings, lists and dictionaries.  Strings are
      sequences of 8-bit characters; only the ASCII digits and the ASCII
      white space are recognised by [int()].
    - A float is a [spec_float] (sign, mantissa, binary exponent); only its
      truth value and its truncation by [int()] are used, both exact.
    - The logger and [requests.post] are effects.  The handler runs in a
      state-and-exception monad over a [world] that records the log
      records emitted and the requests issued, in order.  What the
      network answers is a parameter [http] of the handler.
    - A log message keeps the structure of the f-string that builds it:
      literal text and the formatted values.
    - Exceptions are the subclasses of [Exception]; each carries the two
      class memberships the handler tests for.
    - The length limit of conversions between [int] and [str]
      ([sys.set_int_max_str_digits]) is not modelled. *)

From Stdlib Require Import ZArith List Bool Ascii String Lia.
From Stdlib Require Import Floats.SpecFloat.
Import ListNotations.
Open Scope string_scope.
Open Scope Z_scope.
Set Warnings "-register-all".

(** ** Python values *)

Inductive pyval : Type :=
| PNone
| PBool (b : bool)
| PInt (z : Z)
| PFloat (f : spec_float)
| PStr (s : string)
| PList (l : list pyval)
| PDict (d : list (string * pyval)).

(** [bool(v)]. *)
Definition truthy (v : pyval) : bool :=
  match v with
  | PNone => false
  | PBool b => b
  | PInt z => negb (z =? 0)
  | PFloat (S754_zero _) => false
  | PFloat _ => true
  | PStr s => negb (String.eqb s "")
  | PList l => match l with [] => false | _ => true end
  | PDict d => match d with [] => false | _ => true end
  end.

(** [isinstance(v, dict)] and [isinstance(v, str)]. *)
Definition isinstance_dict (v : pyval) : bool :=
  match v with PDict _ => true | _ => false end.

Definition isinstance_str (v : pyval) : bool :=
  match v with PStr _ => true | _ => false end.

(** [type(v).__name__]. *)
Definition type_name (v : pyval) : string :=
  match v with
  | PNone => "NoneType"
  | PBool _ => "bool"
  | PInt _ => "int"
  | PFloat _ => "float"
  | PStr _ => "str"
  | PList _ => "list"
  | PDict _ => "dict"
  end.

(** Lookup in a dictionary kept as an association list. *)
Fixpoint assoc (k : string) (d : list (string * pyval)) : option pyval :=
  match d with
  | [] => None
  | (k', v) :: r => if String.eqb k k' then Some v else assoc k r
  end.

(** [all(l)]. *)
Definition all (l : list pyval) : bool := forallb truthy l.

(** ** Formatted text *)

(** A piece of an f-string, or of an exception message: literal text,
    [str(v)] or [repr(v)]. *)
Inductive frag : Type :=
| Lit (s : string)
| Fmt (v : pyval)
| Repr (v : pyval).

Definition text := list frag.

(** ** Exceptions *)

(** An exception of class [exn_name]; the two flags say whether the class
    derives from [requests.exceptions.RequestException] and from
    [ValueError] (some classes of [requests] derive from both). *)
Record exn : Type := mk_exn {
  exn_name : string;
  is_RequestException : bool;
  is_ValueError : bool;
  exn_str : text
}.

Definition KeyError (key : string) : exn :=
  mk_exn "KeyError" false false [Repr (PStr key)].

Definition ValueError (msg : text) : exn :=
  mk_exn "ValueError" false true msg.

Definition TypeError (msg : text) : exn :=
  mk_exn "TypeError" false false msg.

Definition OverflowError (msg : text) : exn :=
  mk_exn "OverflowError" false false msg.

Definition AttributeError (msg : text) : exn :=
  mk_exn "AttributeError" false false msg.

Definition HTTPError (msg : text) : exn :=
  mk_exn "HTTPError" true false msg.

(** ** [int()] *)

(** White space of the C locale, skipped by [int()] around a literal. *)
Definition is_space (c : ascii) : bool :=
  let n := Z.of_nat (nat_of_ascii c) in
  ((9 <=? n) && (n <=? 13)) || (n =? 32).

Definition digit_of (c : ascii) : option Z :=
  let n := Z.of_nat (nat_of_ascii c) in
  if (48 <=? n) && (n <=? 57) then Some (n - 48) else None.

Fixpoint lstrip (s : list ascii) : list ascii :=
  match s with
  | c :: r => if is_space c then lstrip r else s
  | [] => []
  end.

Definition strip (s : list ascii) : list ascii :=
  rev (lstrip (rev (lstrip s))).

(** Decimal digits, with single underscores allowed between two digits.
    [prev] says that the previous character was a digit. *)
Fixpoint parse_digits (acc : Z) (prev : bool) (s : list ascii) : option Z :=
  match s with
  | [] => if prev then Some acc else None
  | c :: r =>
      match digit_of c with
      | Some d => parse_digits (10 * acc + d) true r
      | None =>
          if Ascii.eqb c "_"%char
          then (if prev then parse_digits acc false r else None)
          else None
      end
  end.

(** [int(s)] for a string, base 10: white space, an optional sign, digits. *)
Definition int_of_str (s : string) : option Z :=
  match strip (list_ascii_of_string s) with
  | [] => None
  | c :: r =>
      if Ascii.eqb c "+" then parse_digits 0 false r
      else if Ascii.eqb c "-" then option_map Z.opp (parse_digits 0 false r)
      else parse_digits 0 false (c :: r)
  end.

(** [int(f)] for a finite float: truncation toward zero. *)
Definition trunc_float (s : bool) (m : positive) (e : Z) : Z :=
  let a := if 0 <=? e then Z.pos m * 2 ^ e else Z.pos m / 2 ^ (- e) in
  if s then - a else a.

Definition not_a_number_msg (v : pyval) : text :=
  [Lit "int() argument must be a string, a bytes-like object or a real number, not '";
   Lit (type_name v); Lit "'"].

(** [int(v)]: the integer, or the exception raised. *)
Definition py_int (v : pyval) : Z + exn :=
  match v with
  | PInt z => inl z
  | PBool b => inl (if b then 1 else 0)
  | PFloat (S754_zero _) => inl 0
  | PFloat (S754_finite s m e) => inl (trunc_float s m e)
  | PFloat S754_nan => inr (ValueError [Lit "cannot convert float NaN to integer"])
  | PFloat (S754_infinity _) =>
      inr (OverflowError [Lit "cannot convert float infinity to integer"])
  | PStr s =>
      match int_of_str s with
      | Some z => inl z
      | None =>
          inr (ValueError [Lit "invalid literal for int() with base 10: "; Repr v])
      end
  | PNone | PList _ | PDict _ => inr (TypeError (not_a_number_msg v))
  end.

(** ** The world: log records and outbound requests *)

Inductive level : Type := INFO | WARNING | ERROR.

(** A record handed to the logger; [exc_info] is the exception attached
    by [exc_info=True]. *)
Record log_record : Type := mk_log {
  log_level : level;
  log_msg : text;
  log_exc_info : option exn
}.

(** The text that [json.dumps] makes of a value. *)
Inductive json_text : Type := json_dumps (v : pyval).

(** The arguments of one call of [requests.post]. *)
Record request : Type := mk_request {
  req_url : string;
  req_headers : list (string * pyval);
  req_params : list (string * pyval);
  req_data : json_text
}.

(** What [requests.post] gives back when it does not raise. *)
Record response : Type := mk_response {
  status_code : Z;
  reason : string;
  resp_url : string;
  resp_text : string
}.

Record world : Type := mk_world {
  logs : list log_record;
  sent : list request
}.

Definition empty_world : world := mk_world [] [].

(** ** The monad of the handler *)

Inductive result (A : Type) : Type :=
| Ok (a : A)
| Raised (e : exn).
Arguments Ok {A} a.
Arguments Raised {A} e.

Definition M (A : Type) : Type := world -> result A * world.

Definition ret {A} (a : A) : M A := fun w => (Ok a, w).

Definition bind {A B} (m : M A) (k : A -> M B) : M B :=
  fun w =>
    match m w with
    | (Ok a, w') => k a w'
    | (Raised e, w') => (Raised e, w')
    end.

Definition raise {A} (e : exn) : M A := fun w => (Raised e, w).

(** [try: body except ...: handler]. *)
Definition try_except {A} (body : M A) (handler : exn -> M A) : M A :=
  fun w =>
    match body w with
    | (Ok a, w') => (Ok a, w')
    | (Raised e, w') => handler e w'
    end.

Definition lift {A} (r : A + exn) : M A :=
  match r with
  | inl a => ret a
  | inr e => raise e
  end.

Declare Scope py_scope.
Delimit Scope py_scope with py.
Notation "x <- m ;; k" := (bind m (fun x => k))
  (at level 100, m at next level, right associativity) : py_scope.
Notation "m ;; k" := (bind m (fun _ => k))
  (at level 100, right associativity) : py_scope.
Open Scope py_scope.

Definition emit (l : level) (msg : text) (e : option exn) : M unit :=
  fun w => (Ok tt, mk_world (logs w ++ [mk_log l msg e]) (sent w)).

Definition logger_info (msg : text) : M unit := emit INFO msg None.
Definition logger_warning (msg : text) : M unit := emit WARNING msg None.
Definition logger_error (msg : text) : M unit := emit ERROR msg None.
(** [logger.error(msg, exc_info=True)] inside [except ... as e]. *)
Definition logger_error_exc (msg : text) (e : exn) : M unit := emit ERROR msg (Some e).

(** ** The CloudEvent *)

(** The envelope: its attributes (id, type, time, ...) and its data. *)
Record CloudEvent : Type := mk_event {
  attributes : list (string * pyval);
  data : pyval
}.

(** [cloud_event[key]]: the attribute, or [KeyError]. *)
Definition getitem (ev : CloudEvent) (key : string) : M pyval :=
  match assoc key (attributes ev) with
  | Some v => ret v
  | None => raise (KeyError key)
  end.

Definition no_attribute (v : pyval) (name : string) : exn :=
  AttributeError [Lit "'"; Lit (type_name v); Lit "' object has no attribute '";
                  Lit name; Lit "'"].

(** The value under [key], [None] when the key is absent. *)
Definition dict_get (kv : list (string * pyval)) (key : string) : pyval :=
  match assoc key kv with
  | Some v => v
  | None => PNone
  end.

(** [d.get(key)]. *)
Definition get (d : pyval) (key : string) : M pyval :=
  match d with
  | PDict kv => ret (dict_get kv key)
  | _ => raise (no_attribute d "get")
  end.

(** [s.startswith(p)]. *)
Definition startswith (s : pyval) (p : string) : M bool :=
  match s with
  | PStr x => ret (String.prefix p x)
  | _ => raise (no_attribute s "startswith")
  end.

(** [response.raise_for_status()] of [requests]: [HTTPError] for the
    statuses 400 to 599. *)
Definition raise_for_status (r : response) : M unit :=
  if (400 <=? status_code r) && (status_code r <? 500) then
    raise (HTTPError [Fmt (PInt (status_code r)); Lit " Client Error: ";
                      Lit (reason r); Lit " for url: "; Lit (resp_url r)])
  else if (500 <=? status_code r) && (status_code r <? 600) then
    raise (HTTPError [Fmt (PInt (status_code r)); Lit " Server Error: ";
                      Lit (reason r); Lit " for url: "; Lit (resp_url r)])
  else ret tt.

(** ** Module-level configuration *)

Definition APPS_SCRIPT_WEB_APP_URL : string :=
  "https://script.google.com/macros/s/AKfycbw3ktuue6_x_SzbGFb58CS5nbttsLvpi5Nzd9fdPaM6egVlywNsll2UaTbwuFsIX8Re/exec".

(** [os.environ.get(key, default)]. *)
Fixpoint environ_get (environ : list (string * string)) (key default : string) : string :=
  match environ with
  | [] => default
  | (k, v) :: r => if String.eqb key k then v else environ_get r key default
  end.

(** The answer of the network to one request: a response, or the
    exception that [requests.post] raises. *)
Inductive post_outcome : Type :=
| Responded (r : response)
| Failed (e : exn).

Section Handler.

(** The process environment, read once when the module is loaded. *)
Variable environ : list (string * string).

(** The network. *)
Variable http : request -> post_outcome.

Definition WEBHOOK_SECRET_TOKEN : string :=
  environ_get environ "WEBHOOK_SECRET_TOKEN" "12345".

(** [requests.post(url, headers=..., params=..., data=...)]: the call is
    recorded, then the network answers. *)
Definition requests_post (url : string) (headers params : list (string * pyval))
           (body : json_text) : M response :=
  fun w =>
    let r := mk_request url headers params body in
    let w' := mk_world (logs w) (sent w ++ [r]) in
    match http r with
    | Responded resp => (Ok resp, w')
    | Failed e => (Raised e, w')
    end.

(** The three [except] clauses of the handler, tried in order. *)
Definition on_exception (event_id file_name : pyval) (e : exn) : M unit :=
  if is_RequestException e then
    logger_error_exc
      ([Lit "["; Fmt event_id;
        Lit "] Error al enviar metadatos a Apps Script Web App: "] ++ exn_str e)%list e
  else if is_ValueError e then
    logger_error_exc
      ([Lit "["; Fmt event_id;
        Lit "] Error al convertir el tamaño del archivo '"; Fmt file_name;
        Lit "': "] ++ exn_str e)%list e
  else
    logger_error_exc
      ([Lit "["; Fmt event_id;
        Lit "] Error inesperado al procesar el archivo '"; Fmt file_name;
        Lit "': "] ++ exn_str e)%list e.

(** The body of the [try] block. *)
Definition forward (event_id file_name file_size content_type : pyval)
           (headers params : list (string * pyval)) (payload : pyval) : M unit :=
  actual_file_size <- lift (py_int file_size) ;;
  is_text <- startswith content_type "text/" ;;
  unexpected <- (if negb is_text
                 then (is_app <- (startswith content_type "application/") ;;
                       (ret (negb is_app)))
                 else ret false) ;;
  (if unexpected : bool then
     logger_warning
       [Lit "["; Fmt event_id; Lit "] Archivo '"; Fmt file_name;
        Lit "' con tipo de contenido '"; Fmt content_type;
        Lit "' no es un tipo de texto o aplicación esperado. Saltando procesamiento específico."]
   else ret tt) ;;
  (if actual_file_size >? 10 * 1024 * 1024 then
     logger_warning
       [Lit "["; Fmt event_id; Lit "] Archivo '"; Fmt file_name;
        Lit "' es muy grande ("; Fmt (PInt actual_file_size);
        Lit " bytes). Considerar procesamiento asíncrono o división."]
   else ret tt) ;;
  logger_info
    [Lit "["; Fmt event_id; Lit "] Metadatos de '"; Fmt file_name;
     Lit "' extraídos y registrados exitosamente."] ;;
  logger_info
    [Lit "["; Fmt event_id; Lit "] Enviando metadatos a Apps Script Web App: ";
     Fmt (PStr APPS_SCRIPT_WEB_APP_URL)] ;;
  logger_info
    [Lit "["; Fmt event_id; Lit "] Headers que se enviarán: "; Fmt (PDict headers)] ;;
  logger_info
    [Lit "["; Fmt event_id; Lit "] Parámetros de consulta que se enviarán: ";
     Fmt (PDict params)] ;;
  response <- requests_post APPS_SCRIPT_WEB_APP_URL headers params (json_dumps payload) ;;
  raise_for_status response ;;
  logger_info
    [Lit "["; Fmt event_id;
     Lit "] Solicitud a Apps Script Web App exitosa. Estado: ";
     Fmt (PInt (status_code response)); Lit ", Respuesta: ";
     Fmt (PStr (resp_text response))].

(** The handler. *)
Definition procesar_archivo_gcs (cloud_event : CloudEvent) : M unit :=
  let data := data cloud_event in
  event_id <- getitem cloud_event "id" ;;
  event_type <- getitem cloud_event "type" ;;
  timestamp <- getitem cloud_event "time" ;;
  if negb (truthy data) || negb (isinstance_dict data) then
    logger_error [Lit "Error: Los datos del evento recibidos no son válidos o están vacíos."]
  else
    bucket_name <- get data "bucket" ;;
    file_name <- get data "name" ;;
    file_size <- get data "size" ;;
    content_type <- get data "contentType" ;;
    metageneration <- get data "metageneration" ;;
    if negb (all [bucket_name; file_name; file_size; content_type]) then
      logger_error [Lit "Error: Faltan metadatos esenciales en el evento. Datos: "; Fmt data]
    else
      logger_info [Lit "["; Fmt event_id;
                   Lit "] Activado por evento CloudEvent de Cloud Storage a las ";
                   Fmt timestamp; Lit "."] ;;
      logger_info [Lit "["; Fmt event_id; Lit "] Tipo de Evento: "; Fmt event_type] ;;
      logger_info [Lit "["; Fmt event_id; Lit "] Procesando archivo: '"; Fmt file_name;
                   Lit "' en el bucket: '"; Fmt bucket_name; Lit "'."] ;;
      logger_info [Lit "["; Fmt event_id; Lit "] Detalles del archivo:"] ;;
      logger_info [Lit "   - Tamaño: "; Fmt file_size; Lit " bytes"] ;;
      logger_info [Lit "   - Tipo de Contenido: "; Fmt content_type] ;;
      logger_info [Lit "   - Metageneración: "; Fmt metageneration] ;;
      let payload := PDict [("fileName", file_name);
                            ("bucketName", bucket_name);
                            ("fileSize", file_size);
                            ("contentType", content_type);
                            ("timeCreated", timestamp);
                            ("source", PStr "CloudStorage")] in
      let headers := [("Content-Type", PStr "application/json")] in
      let params := [("token", PStr WEBHOOK_SECRET_TOKEN)] in
      try_except
        (forward event_id file_name file_size content_type headers params payload)
        (on_exception event_id file_name).

(** One invocation, from a world with no log and no request. *)
Definition run (cloud_event : CloudEvent) : result unit * world :=
  procesar_archivo_gcs cloud_event empty_world.

End Handler.

(** ** Vocabulary of the specification *)

(** The envelope carries the identifier, the type and the timestamp. *)
Definition has_attrs (ev : CloudEvent) (event_id event_type timestamp : pyval) : Prop :=
  assoc "id" (attributes ev) = Some event_id /\
  assoc "type" (attributes ev) = Some event_type /\
  assoc "time" (attributes ev) = Some timestamp.

(** The four essential fields of a data body. *)
Definition essential_fields : list string := ["bucket"; "name"; "size"; "contentType"].

Definition essentials (d : list (string * pyval)) : list pyval :=
  map (dict_get d) essential_fields.

(** The Outbound Payload of the specification. *)
Definition outbound_payload (file_name bucket_name file_size content_type timestamp : pyval)
  : pyval :=
  PDict [("fileName", file_name); ("bucketName", bucket_name);
         ("fileSize", file_size); ("contentType", content_type);
         ("timeCreated", timestamp); ("source", PStr "CloudStorage")].

(** The one POST of the specification: fixed URL, JSON content type,
    the token as query parameter, the payload as JSON body. *)
Definition outbound_request (environ : list (string * string))
           (d : list (string * pyval)) (timestamp : pyval) : request :=
  mk_request APPS_SCRIPT_WEB_APP_URL
    [("Content-Type", PStr "application/json")]
    [("token", PStr (WEBHOOK_SECRET_TOKEN environ))]
    (json_dumps (outbound_payload (dict_get d "name") (dict_get d "bucket")
                   (dict_get d "size") (dict_get d "contentType") timestamp)).



(** A status that [raise_for_status] turns into an exception. *)
Definition error_status (r : response) : bool :=
  (400 <=? status_code r) && (status_code r <? 600).

(** The seven records that describe the file, logged before the [try]. *)
Definition intro_logs (event_id event_type timestamp : pyval)
           (d : list (string * pyval)) : list log_record :=
  [ mk_log INFO [Lit "["; Fmt event_id;
                 Lit "] Activado por evento CloudEvent de Cloud Storage a las ";
                 Fmt timestamp; Lit "."] None;
    mk_log INFO [Lit "["; Fmt event_id; Lit "] Tipo de Evento: "; Fmt event_type] None;
    mk_log INFO [Lit "["; Fmt event_id; Lit "] Procesando archivo: '";
                 Fmt (dict_get d "name"); Lit "' en el bucket: '";
                 Fmt (dict_get d "bucket"); Lit "'."] None;
    mk_log INFO [Lit "["; Fmt event_id; Lit "] Detalles del archivo:"] None;
    mk_log INFO [Lit "   - Tamaño: "; Fmt (dict_get d "size"); Lit " bytes"] None;
    mk_log INFO [Lit "   - Tipo de Contenido: "; Fmt (dict_get d "contentType")] None;
    mk_log INFO [Lit "   - Metageneración: "; Fmt (dict_get d "metageneration")] None ].

(** The [try] block of an invocation on the data body [d]. *)
Definition attempt (environ : list (string * string)) (http : request -> post_outcome)
           (event_id timestamp : pyval) (d : list (string * pyval)) : M unit :=
  try_except
    (forward http event_id (dict_get d "name") (dict_get d "size")
       (dict_get d "contentType")
       [("Content-Type", PStr "application/json")]
       [("token", PStr (WEBHOOK_SECRET_TOKEN environ))]
       (outbound_payload (dict_get d "name") (dict_get d "bucket")
          (dict_get d "size") (dict_get d "contentType") timestamp))
    (on_exception event_id (dict_get d "name")).

(** ** Log records of the [try] block *)

(** The two advisory warnings, in the order the handler emits them. *)
Definition advisory_logs (event_id file_name : pyval) (ctype : string) (size : Z)
  : list log_record :=
  (if negb (String.prefix "text/" ctype) && negb (String.prefix "application/" ctype)
   then [mk_log WARNING
           [Lit "["; Fmt event_id; Lit "] Archivo '"; Fmt file_name;
            Lit "' con tipo de contenido '"; Fmt (PStr ctype);
            Lit "' no es un tipo de texto o aplicación esperado. Saltando procesamiento específico."]
           None]
   else []) ++
  (if size >? 10 * 1024 * 1024
   then [mk_log WARNING
           [Lit "["; Fmt event_id; Lit "] Archivo '"; Fmt file_name;
            Lit "' es muy grande ("; Fmt (PInt size);
            Lit " bytes). Considerar procesamiento asíncrono o división."]
           None]
   else []).

(** The four records logged just before the POST. *)
Definition announce_logs (event_id file_name : pyval)
           (headers params : list (string * pyval)) : list log_record :=
  [ mk_log INFO [Lit "["; Fmt event_id; Lit "] Metadatos de '"; Fmt file_name;
                 Lit "' extraídos y registrados exitosamente."] None;
    mk_log INFO [Lit "["; Fmt event_id;
                 Lit "] Enviando metadatos a Apps Script Web App: ";
                 Fmt (PStr APPS_SCRIPT_WEB_APP_URL)] None;
    mk_log INFO [Lit "["; Fmt event_id; Lit "] Headers que se enviarán: ";
                 Fmt (PDict headers)] None;
    mk_log INFO [Lit "["; Fmt event_id;
                 Lit "] Parámetros de consulta que se enviarán: ";
                 Fmt (PDict params)] None ].

Definition success_log (event_id : pyval) (r : response) : log_record :=
  mk_log INFO [Lit "["; Fmt event_id;
               Lit "] Solicitud a Apps Script Web App exitosa. Estado: ";
               Fmt (PInt (status_code r)); Lit ", Respuesta: ";
               Fmt (PStr (resp_text r))] None.

(** The exception of [raise_for_status] for an error status. *)
Definition status_error (r : response) : exn :=
  HTTPError [Fmt (PInt (status_code r));
             Lit (if status_code r <? 500 then " Client Error: " else " Server Error: ");
             Lit (reason r); Lit " for url: "; Lit (resp_url r)].

(** The three error records of the [except] clauses. *)
Definition delivery_error_log (event_id : pyval) (e : exn) : log_record :=
  mk_log ERROR
    ([Lit "["; Fmt event_id;
      Lit "] Error al enviar metadatos a Apps Script Web App: "] ++ exn_str e)%list
    (Some e).

Definition parse_error_log (event_id file_name : pyval) (e : exn) : log_record :=
  mk_log ERROR
    ([Lit "["; Fmt event_id; Lit "] Error al convertir el tamaño del archivo '";
      Fmt file_name; Lit "': "] ++ exn_str e)%list
    (Some e).

Definition unexpected_error_log (event_id file_name : pyval) (e : exn) : log_record :=
  mk_log ERROR
    ([Lit "["; Fmt event_id; Lit "] Error inesperado al procesar el archivo '";
      Fmt file_name; Lit "': "] ++ exn_str e)%list
    (Some e).

(** The record that the [except] clauses log for [e]. *)
Definition exception_log (event_id file_name : pyval) (e : exn) : log_record :=
  if is_RequestException e then delivery_error_log event_id e
  else if is_ValueError e then parse_error_log event_id file_name e
  else unexpected_error_log event_id file_name e.

(** ** Outcomes of an invocation *)

(** The record that closes an invocation that reached the POST. *)
Definition closing_log (http : request -> post_outcome) (req : request)
           (event_id file_name : pyval) : log_record :=
  match http req with
  | Failed e => exception_log event_id file_name e
  | Responded r =>
      if error_status r then exception_log event_id file_name (status_error r)
      else success_log event_id r
  end.

(** The records logged from the start of the [try] to the POST. *)
Definition send_logs (environ : list (string * string)) (event_id : pyval)
           (d : list (string * pyval)) (c : string) (n : Z) : list log_record :=
  advisory_logs event_id (dict_get d "name") c n ++
  announce_logs event_id (dict_get d "name")
    [("Content-Type", PStr "application/json")]
    [("token", PStr (WEBHOOK_SECRET_TOKEN environ))].

(** The terminal states of an invocation on an envelope that carries its
    attributes: aborted before the [try], aborted inside it before the
    POST, or POST attempted. *)
Inductive outcome (environ : list (string * string)) (http : request -> post_outcome)
          (ev : CloudEvent) (event_id event_type timestamp : pyval) : world -> Prop :=
| invalid_data :
    truthy (data ev) = false \/ isinstance_dict (data ev) = false ->
    outcome environ http ev event_id event_type timestamp
      (mk_world
         [mk_log ERROR
            [Lit "Error: Los datos del evento recibidos no son válidos o están vacíos."]
            None] [])
| missing_field d :
    data ev = PDict d -> d <> [] -> all (essentials d) = false ->
    outcome environ http ev event_id event_type timestamp
      (mk_world
         [mk_log ERROR
            [Lit "Error: Faltan metadatos esenciales en el evento. Datos: "; Fmt (PDict d)]
            None] [])
| aborted_in_try d e :
    data ev = PDict d -> all (essentials d) = true ->
    py_int (dict_get d "size") = inr e \/
    (exists n, py_int (dict_get d "size") = inl n) /\
    isinstance_str (dict_get d "contentType") = false /\
    e = no_attribute (dict_get d "contentType") "startswith" ->
    outcome environ http ev event_id event_type timestamp
      (mk_world
         (intro_logs event_id event_type timestamp d
            ++ [exception_log event_id (dict_get d "name") e]) [])
| send_attempted d n c :
    data ev = PDict d -> all (essentials d) = true ->
    py_int (dict_get d "size") = inl n ->
    dict_get d "contentType" = PStr c ->
    outcome environ http ev event_id event_type timestamp
      (mk_world
         (intro_logs event_id event_type timestamp d
            ++ send_logs environ event_id d c n
            ++ [closing_log http (outbound_request environ d timestamp)
                  event_id (dict_get d "name")])
         [outbound_request environ d timestamp]).

(** ** Sample envelopes and networks *)

Definition sample_time : pyval := PStr "2024-01-01T00:00:00Z".
Definition sample_id : pyval := PStr "evt-1".
Definition sample_type : pyval := PStr "google.cloud.storage.object.v1.finalized".

Definition sample_attrs : list (string * pyval) :=
  [("id", sample_id); ("type", sample_type); ("time", sample_time)].

Definition sample_body (size ctype : pyval) : list (string * pyval) :=
  [("bucket", PStr "b1"); ("name", PStr "f.txt"); ("size", size); ("contentType", ctype)].

Definition sample_event (size ctype : pyval) : CloudEvent :=
  mk_event sample_attrs (PDict (sample_body size ctype)).

(** A network that answers every request with the given status. *)
Definition answers (status : Z) : request -> post_outcome :=
  fun req => Responded (mk_response status "" (req_url req) "").

(** ** Further vocabulary: what is forwarded, warnings, composition *)

(** The data body passes every check made before the POST: the four
    essential fields are truthy, [int()] converts the size and the content
    type is a string. *)
Definition forwardable (d : list (string * pyval)) : bool :=
  all (essentials d) &&
  (match py_int (dict_get d "size") with inl _ => true | inr _ => false end) &&
  isinstance_str (dict_get d "contentType").

Definition is_warning (r : log_record) : bool :=
  match log_level r with WARNING => true | _ => false end.

(** The warning records of a log. *)
Definition warnings (l : list log_record) : list log_record := filter is_warning l.





(** The first of id, type, time that the attributes lack, if any. *)
Definition first_missing (attrs : list (string * pyval)) : option string :=
  find (fun k => match assoc k attrs with None => true | Some _ => false end)
       ["id"; "type"; "time"].



(** ** The three ways through the handler *)

Section Paths.

Variable environ : list (string * string).
Variable http : request -> post_outcome.
Variable ev : CloudEvent.
Variables event_id event_type timestamp : pyval.
Hypothesis Hattrs : has_attrs ev event_id event_type timestamp.

Lemma run_invalid_data :
  truthy (data ev) = false \/ isinstance_dict (data ev) = false ->
  run environ http ev =
  (Ok tt,
   mk_world
     [mk_log ERROR
        [Lit "Error: Los datos del evento recibidos no son válidos o están vacíos."]
        None] []).
Proof.
  destruct Hattrs as (Hid & Hty & Htm). intros Hbad.
  assert (Hguard : negb (truthy (data ev)) || negb (isinstance_dict (data ev)) = true).
  { destruct Hbad as [-> | ->]; [reflexivity | apply orb_true_r]. }
  unfold run, procesar_archivo_gcs, getitem, bind.
  rewrite Hid, Hty, Htm. cbn [ret raise]. rewrite Hguard. reflexivity.
Qed.

Variable d : list (string * pyval).
Hypothesis Hdata : data ev = PDict d.

Lemma run_missing_field :
  d <> [] ->
  all (essentials d) = false ->
  run environ http ev =
  (Ok tt,
   mk_world
     [mk_log ERROR
        [Lit "Error: Faltan metadatos esenciales en el evento. Datos: "; Fmt (PDict d)]
        None] []).
Proof.
  destruct Hattrs as (Hid & Hty & Htm). intros Hne Hall.
  unfold run, procesar_archivo_gcs, getitem, bind.
  rewrite Hid, Hty, Htm, Hdata. cbn [ret raise get truthy isinstance_dict].
  destruct d as [|kv r]; [congruence|].
  cbn [negb orb].
  change (all _) with (all (essentials (kv :: r))). rewrite Hall. reflexivity.
Qed.

Lemma run_valid :
  all (essentials d) = true ->
  run environ http ev =
  attempt environ http event_id timestamp d
    (mk_world (intro_logs event_id event_type timestamp d) []).
Proof.
  destruct Hattrs as (Hid & Hty & Htm). intros Hall.
  unfold run, procesar_archivo_gcs, getitem, bind.
  rewrite Hid, Hty, Htm, Hdata. cbn [ret raise get truthy isinstance_dict].
  destruct d as [|kv r]; [discriminate Hall|].
  cbn [negb orb].
  change (all _) with (all (essentials (kv :: r))). rewrite Hall. reflexivity.
Qed.

End Paths.

(** ** The [try] block *)

Lemma on_exception_logs event_id file_name e w :
  on_exception event_id file_name e w =
  (Ok tt, mk_world (logs w ++ [exception_log event_id file_name e]) (sent w)).
Proof.
  unfold on_exception, exception_log.
  destruct (is_RequestException e); [reflexivity|].
  destruct (is_ValueError e); reflexivity.
Qed.

Lemma raise_for_status_cases r w :
  raise_for_status r w =
  if error_status r then (Raised (status_error r), w) else (Ok tt, w).
Proof.
  unfold raise_for_status, error_status, status_error.
  destruct (400 <=? status_code r) eqn:H4; cbn [andb].
  - destruct (status_code r <? 500) eqn:H5.
    + assert (H6 : (status_code r <? 600) = true) by lia. rewrite H6. reflexivity.
    + destruct (500 <=? status_code r) eqn:H7; [|lia].
      cbn [andb]. destruct (status_code r <? 600); reflexivity.
  - assert (H7 : (500 <=? status_code r) = false) by lia. rewrite H7. reflexivity.
Qed.

Section TryBlock.

Variable http : request -> post_outcome.
Variables event_id file_name file_size content_type : pyval.
Variables headers params : list (string * pyval).
Variable payload : pyval.

Let body := forward http event_id file_name file_size content_type
              headers params payload.

Lemma forward_int_raises e w :
  py_int file_size = inr e -> body w = (Raised e, w).
Proof.
  intros H. unfold body, forward, bind. rewrite H. reflexivity.
Qed.

Lemma forward_startswith_raises n w :
  py_int file_size = inl n ->
  isinstance_str content_type = false ->
  body w = (Raised (no_attribute content_type "startswith"), w).
Proof.
  intros H Hs. unfold body, forward, bind. rewrite H. cbn [lift ret].
  destruct content_type; try reflexivity; discriminate Hs.
Qed.

(** With an integer size and a string content type the POST is issued;
    what follows depends on the answer of the network. *)
Lemma forward_posts n c w :
  py_int file_size = inl n ->
  content_type = PStr c ->
  let req := mk_request APPS_SCRIPT_WEB_APP_URL headers params (json_dumps payload) in
  let w1 := mk_world (logs w ++ advisory_logs event_id file_name c n
                             ++ announce_logs event_id file_name headers params)
                     (sent w ++ [req]) in
  body w =
  match http req with
  | Failed e => (Raised e, w1)
  | Responded r =>
      if error_status r then (Raised (status_error r), w1)
      else (Ok tt, mk_world (logs w1 ++ [success_log event_id r]) (sent w1))
  end.
Proof.
  intros H Hc req w1. unfold body, forward, bind. rewrite H, Hc.
  cbn [lift ret startswith]. unfold advisory_logs in w1.
  assert (Hw1 :
    forall l, w1 = mk_world l (sent w ++ [req]) ->
    (let (r, w') := requests_post http APPS_SCRIPT_WEB_APP_URL headers params
                      (json_dumps payload) (mk_world l (sent w)) in
     match r with
     | Ok a =>
         let (r0, w'0) := raise_for_status a w' in
         match r0 with
         | Ok _ => logger_info
                     [Lit "["; Fmt event_id;
                      Lit "] Solicitud a Apps Script Web App exitosa. Estado: ";
                      Fmt (PInt (status_code a)); Lit ", Respuesta: ";
                      Fmt (PStr (resp_text a))] w'0
         | Raised e => (Raised e, w'0)
         end
     | Raised e => (Raised e, w')
     end) =
    match http req with
    | Failed e => (Raised e, w1)
    | Responded r =>
        if error_status r then (Raised (status_error r), w1)
        else (Ok tt, mk_world (logs w1 ++ [success_log event_id r]) (sent w1))
    end).
  { intros l ->. unfold requests_post. cbn [logs sent]. fold req.
    destruct (http req) as [r|e]; [|reflexivity].
    rewrite raise_for_status_cases. destruct (error_status r); reflexivity. }
  destruct (String.prefix "text/" c); cbn [negb andb];
    [|destruct (String.prefix "application/" c); cbn [negb]];
    destruct (n >? 10 * 1024 * 1024) eqn:Hn;
    cbn [logger_warning logger_info emit logs sent app]; try rewrite Hn;
    apply Hw1; unfold w1, announce_logs;
    repeat (progress cbn [logs sent app negb andb] || rewrite <- app_assoc);
    reflexivity.
Qed.

End TryBlock.

(** ** The [try] block with its [except] clauses *)

Section Attempt.

Variable environ : list (string * string).
Variable http : request -> post_outcome.
Variables event_id timestamp : pyval.
Variable d : list (string * pyval).

Lemma attempt_int_raises e w :
  py_int (dict_get d "size") = inr e ->
  attempt environ http event_id timestamp d w =
  (Ok tt, mk_world (logs w ++ [exception_log event_id (dict_get d "name") e]) (sent w)).
Proof.
  intros H. unfold attempt, try_except.
  rewrite (forward_int_raises _ _ _ _ _ _ _ _ e w H).
  apply on_exception_logs.
Qed.

Lemma attempt_startswith_raises n w :
  py_int (dict_get d "size") = inl n ->
  isinstance_str (dict_get d "contentType") = false ->
  attempt environ http event_id timestamp d w =
  (Ok tt,
   mk_world (logs w ++ [exception_log event_id (dict_get d "name")
                          (no_attribute (dict_get d "contentType") "startswith")])
            (sent w)).
Proof.
  intros H Hs. unfold attempt, try_except.
  rewrite (forward_startswith_raises _ _ _ _ _ _ _ _ n w H Hs).
  apply on_exception_logs.
Qed.

Lemma attempt_posts n c w :
  py_int (dict_get d "size") = inl n ->
  dict_get d "contentType" = PStr c ->
  let req := outbound_request environ d timestamp in
  attempt environ http event_id timestamp d w =
  (Ok tt,
   mk_world (logs w ++ send_logs environ event_id d c n
                    ++ [closing_log http req event_id (dict_get d "name")])
            (sent w ++ [req])).
Proof.
  intros H Hc req. unfold attempt, try_except.
  rewrite (forward_posts _ _ _ _ _ _ _ _ n c w H Hc).
  fold (outbound_request environ d timestamp). fold req.
  unfold closing_log, send_logs.
  destruct (http req) as [r|e].
  - destruct (error_status r).
    + rewrite on_exception_logs. cbn [logs sent].
      rewrite <- !app_assoc. reflexivity.
    + cbn [logs sent]. rewrite <- !app_assoc. reflexivity.
  - rewrite on_exception_logs. cbn [logs sent].
    rewrite <- !app_assoc. reflexivity.
Qed.

End Attempt.

(** ** Every invocation ends in one of the outcomes *)

Lemma run_outcome environ http ev event_id event_type timestamp :
  has_attrs ev event_id event_type timestamp ->
  exists w, run environ http ev = (Ok tt, w) /\
            outcome environ http ev event_id event_type timestamp w.
Proof.
  intros Ha.
  destruct (data ev) as [| | | | |l|d] eqn:Hd;
    try (eexists; split;
         [apply (run_invalid_data environ http ev _ _ _ Ha); rewrite Hd; right; reflexivity
         |apply invalid_data; rewrite Hd; right; reflexivity]).
  destruct d as [|kv r].
  { eexists; split;
      [apply (run_invalid_data environ http ev _ _ _ Ha); rewrite Hd; left; reflexivity
      |apply invalid_data; rewrite Hd; left; reflexivity]. }
  destruct (all (essentials (kv :: r))) eqn:Hall.
  2:{ eexists; split;
        [apply (run_missing_field environ http ev _ _ _ Ha _ Hd); [discriminate|exact Hall]
        |apply missing_field; [exact Hd|discriminate|exact Hall]]. }
  rewrite (run_valid environ http ev _ _ _ Ha _ Hd Hall).
  destruct (py_int (dict_get (kv :: r) "size")) as [n|e] eqn:Hint.
  2:{ rewrite (attempt_int_raises _ _ _ _ _ e _ Hint). eexists; split; [reflexivity|].
      apply aborted_in_try; auto. }
  destruct (isinstance_str (dict_get (kv :: r) "contentType")) eqn:Hs.
  - destruct (dict_get (kv :: r) "contentType") as [| | | |c| |] eqn:Hc;
      try discriminate Hs.
    rewrite (attempt_posts _ _ _ _ _ n c _ Hint Hc). eexists; split; [reflexivity|].
    apply (send_attempted _ _ _ _ _ _ _ n c); auto.
  - rewrite (attempt_startswith_raises _ _ _ _ _ n _ Hint Hs).
    eexists; split; [reflexivity|].
    apply aborted_in_try; auto. right. split; [exists n; exact Hint|auto].
Qed.

(** Without one of the three attributes the subscript raises before
    anything is logged or sent. *)
Lemma run_missing_attribute environ http ev :
  (forall event_id event_type timestamp,
      ~ has_attrs ev event_id event_type timestamp) ->
  exists k, run environ http ev = (Raised (KeyError k), empty_world).
Proof.
  intros Hno. unfold run, procesar_archivo_gcs, getitem, bind.
  destruct (assoc "id" (attributes ev)) as [i|] eqn:Hi;
    [|exists "id"; reflexivity].
  destruct (assoc "type" (attributes ev)) as [ty|] eqn:Hty;
    [|exists "type"; reflexivity].
  destruct (assoc "time" (attributes ev)) as [tm|] eqn:Htm;
    [|exists "time"; reflexivity].
  exfalso. apply (Hno i ty tm). repeat split; assumption.
Qed.

(** ** Facts about the log records *)




Lemma exception_log_level event_id file_name e :
  log_level (exception_log event_id file_name e) = ERROR.
Proof.
  unfold exception_log.
  destruct (is_RequestException e); [reflexivity|].
  destruct (is_ValueError e); reflexivity.
Qed.

Lemma attrs_dec ev :
  (exists event_id event_type timestamp, has_attrs ev event_id event_type timestamp) \/
  (forall event_id event_type timestamp, ~ has_attrs ev event_id event_type timestamp).
Proof.
  unfold has_attrs.
  destruct (assoc "id" (attributes ev)) as [i|];
    [|right; intros ? ? ? (H & _); discriminate H].
  destruct (assoc "type" (attributes ev)) as [ty|];
    [|right; intros ? ? ? (_ & H & _); discriminate H].
  destruct (assoc "time" (attributes ev)) as [tm|];
    [|right; intros ? ? ? (_ & _ & H); discriminate H].
  left. exists i, ty, tm. repeat split.
Qed.

(** *** Strings that [int()] rejects *)






(** ** Properties of the specification *)
















(** C7: for every envelope, every environment and every behaviour of the
    network, an invocation issues at most one outbound request. *)
Theorem C7_at_most_one_request environ http ev :
  (List.length (sent (snd (run environ http ev))) <= 1)%nat.
Proof.
  destruct (attrs_dec ev) as [(i & ty & tm & Ha) | Hno].
  - destruct (run_outcome environ http ev _ _ _ Ha) as (w & Hrun & Hout).
    rewrite Hrun. cbn [snd].
    destruct Hout; cbn [sent List.length]; lia.
  - destruct (run_missing_attribute environ http ev Hno) as (k & Hrun).
    rewrite Hrun. cbn. lia.
Qed.








(** ** Further properties: what is sent, and when *)


(** The requests of an invocation, read off the data body. *)
Lemma sent_of_run environ http ev event_id event_type timestamp d :
  has_attrs ev event_id event_type timestamp ->
  data ev = PDict d ->
  sent (snd (run environ http ev)) =
  if forwardable d then [outbound_request environ d timestamp] else [].
Proof.
  intros Ha Hd.
  destruct (run_outcome environ http ev _ _ _ Ha) as (w & Hrun & Hout).
  rewrite Hrun. cbn [snd]. unfold forwardable.
  destruct Hout as [Hbad | d' Hd' Hne Hall | d' e Hd' Hall He | d' n c Hd' Hall Hint Hc];
    cbn [sent]; try (rewrite Hd in Hd'; injection Hd' as <-).
  - rewrite Hd in Hbad. destruct Hbad as [Hbad | Hbad]; [|discriminate Hbad].
    destruct d; [reflexivity|discriminate Hbad].
  - rewrite Hall. reflexivity.
  - rewrite Hall. destruct He as [He | ((n & Hint) & Hs & _)].
    + rewrite He. reflexivity.
    + rewrite Hint, Hs. reflexivity.
  - rewrite Hall, Hint, Hc. reflexivity.
Qed.

Lemma sent_inv environ http ev req :
  In req (sent (snd (run environ http ev))) ->
  exists event_id event_type timestamp d,
    has_attrs ev event_id event_type timestamp /\
    data ev = PDict d /\
    forwardable d = true /\
    req = outbound_request environ d timestamp.
Proof.
  intros Hin. destruct (attrs_dec ev) as [(i & ty & tm & Ha) | Hno].
  - destruct (data ev) as [| | | | |l|d] eqn:Hd;
      try (rewrite (run_invalid_data environ http ev _ _ _ Ha) in Hin
             by (rewrite Hd; right; reflexivity);
           destruct Hin).
    rewrite (sent_of_run environ http ev _ _ _ d Ha Hd) in Hin.
    destruct (forwardable d) eqn:Hf; [|destruct Hin].
    destruct Hin as [<- | []]. exists i, ty, tm, d. auto.
  - destruct (run_missing_attribute environ http ev Hno) as (k & Hrun).
    rewrite Hrun in Hin. destruct Hin.
Qed.

Lemma environ_get_absent environ key default :
  (forall v, ~ In (key, v) environ) -> environ_get environ key default = default.
Proof.
  induction environ as [|(k, v) r IH]; intros Hno; [reflexivity|].
  cbn [environ_get]. destruct (String.eqb_spec key k) as [-> | Hk].
  - exfalso. apply (Hno v). left. reflexivity.
  - apply IH. intros v' Hin. apply (Hno v'). right. exact Hin.
Qed.

Lemma environ_get_present environ key default v :
  NoDup (map fst environ) -> In (key, v) environ ->
  environ_get environ key default = v.
Proof.
  induction environ as [|(k, v0) r IH]; intros Hnd Hin; [destruct Hin|].
  cbn [environ_get]. cbn [map fst] in Hnd. inversion Hnd as [|? ? Hnotin Hnd']; subst.
  destruct Hin as [E | Hin].
  - injection E as -> ->. rewrite String.eqb_refl. reflexivity.
  - destruct (String.eqb_spec key k) as [-> | Hk].
    + exfalso. apply Hnotin. change k with (fst (k, v)). apply in_map. exact Hin.
    + apply IH; assumption.
Qed.

(** X1: when the process environment does not define
    WEBHOOK_SECRET_TOKEN, every request an invocation issues carries the
    fallback token "12345". *)
Theorem X1_fallback_token environ http ev req :
  (forall v, ~ In ("WEBHOOK_SECRET_TOKEN", v) environ) ->
  In req (sent (snd (run environ http ev))) ->
  req_params req = [("token", PStr "12345")].
Proof.
  intros Hno Hin.
  destruct (sent_inv environ http ev req Hin) as (i & ty & tm & d & _ & _ & _ & ->).
  cbn [outbound_request req_params]. unfold WEBHOOK_SECRET_TOKEN.
  rewrite (environ_get_absent _ _ _ Hno). reflexivity.
Qed.

Lemma X1_fallback_token_witness :
  req_params (outbound_request [("HOME", "/root")]
                (sample_body (PStr "1024") (PStr "text/plain")) sample_time)
  = [("token", PStr "12345")].
Proof.
  apply (X1_fallback_token [("HOME", "/root")] (answers 200)
           (sample_event (PStr "1024") (PStr "text/plain"))).
  - intros v [H | []]. discriminate H.
  - left. reflexivity.
Defined.

(** X2: when the process environment, a mapping with one value per name,
    defines WEBHOOK_SECRET_TOKEN as [v], every request an invocation
    issues carries the token [v], wherever the variable stands in the
    environment. *)
Theorem X2_configured_token environ http ev req v :
  NoDup (map fst environ) ->
  In ("WEBHOOK_SECRET_TOKEN", v) environ ->
  In req (sent (snd (run environ http ev))) ->
  req_params req = [("token", PStr v)].
Proof.
  intros Hnd Hv Hin.
  destruct (sent_inv environ http ev req Hin) as (i & ty & tm & d & _ & _ & _ & ->).
  cbn [outbound_request req_params]. unfold WEBHOOK_SECRET_TOKEN.
  rewrite (environ_get_present _ _ _ v Hnd Hv). reflexivity.
Qed.

Lemma X2_configured_token_witness :
  req_params (outbound_request [("HOME", "/root"); ("WEBHOOK_SECRET_TOKEN", "s3cret")]
                (sample_body (PStr "1024") (PStr "text/plain")) sample_time)
  = [("token", PStr "s3cret")].
Proof.
  apply (X2_configured_token [("HOME", "/root"); ("WEBHOOK_SECRET_TOKEN", "s3cret")]
           (answers 200) (sample_event (PStr "1024") (PStr "text/plain"))).
  - repeat constructor; simpl; intuition discriminate.
  - right. left. reflexivity.
  - left. reflexivity.
Defined.






(** X5: the attributes are read before the data is looked at, in the order
    id, type, time.  The first one that is missing raises [KeyError] with
    its name, out of the handler, with nothing logged and nothing sent,
    whatever the data body. *)
Theorem X5_first_missing_attribute_raises environ http ev k :
  first_missing (attributes ev) = Some k ->
  run environ http ev = (Raised (KeyError k), empty_world).
Proof.
  unfold first_missing, run, procesar_archivo_gcs, getitem, bind. cbn [find].
  destruct (assoc "id" (attributes ev)); [|intros [= <-]; reflexivity].
  destruct (assoc "type" (attributes ev)); [|intros [= <-]; reflexivity].
  destruct (assoc "time" (attributes ev)); [|intros [= <-]; reflexivity].
  discriminate.
Qed.

Lemma X5_first_missing_attribute_raises_witness :
  run [] (answers 200) (mk_event [("id", sample_id); ("source", PStr "gcs")] PNone) =
  (Raised (KeyError "type"), empty_world).
Proof.
  apply (X5_first_missing_attribute_raises [] (answers 200)
           (mk_event [("id", sample_id); ("source", PStr "gcs")] PNone) "type").
  reflexivity.
Defined.

(** ** Further properties: the network and the log *)





Lemma warnings_app l1 l2 : warnings (l1 ++ l2) = (warnings l1 ++ warnings l2)%list.
Proof. apply filter_app. Qed.

Lemma exception_log_not_warning event_id file_name e :
  is_warning (exception_log event_id file_name e) = false.
Proof.
  unfold is_warning. rewrite exception_log_level. reflexivity.
Qed.

Lemma closing_log_not_warning http req event_id file_name :
  is_warning (closing_log http req event_id file_name) = false.
Proof.
  unfold closing_log. destruct (http req) as [r|e].
  - destruct (error_status r); [apply exception_log_not_warning|reflexivity].
  - apply exception_log_not_warning.
Qed.

(** X7: an expected content type and a size up to the threshold raise no
    advisory.  For a forwardable envelope whose content type starts with
    "text/" or "application/" and whose size is at most 10485760 bytes
    (the bound included), no warning record is logged. *)
Theorem X7_no_advisory_within_bounds
        environ http ev event_id event_type timestamp d n c :
  has_attrs ev event_id event_type timestamp ->
  data ev = PDict d ->
  all (essentials d) = true ->
  py_int (dict_get d "size") = inl n ->
  dict_get d "contentType" = PStr c ->
  String.prefix "text/" c = true \/ String.prefix "application/" c = true ->
  n <= 10485760 ->
  warnings (logs (snd (run environ http ev))) = [].
Proof.
  intros Ha Hd Hall Hint Hc Hpre Hn.
  rewrite (run_valid environ http ev _ _ _ Ha _ Hd Hall).
  rewrite (attempt_posts _ _ _ _ _ n c _ Hint Hc). cbn [snd logs].
  rewrite !warnings_app. unfold send_logs, advisory_logs.
  assert (Hle : (n >? 10 * 1024 * 1024) = false) by lia. rewrite Hle.
  assert (Hno : negb (String.prefix "text/" c) && negb (String.prefix "application/" c)
                = false).
  { destruct Hpre as [-> | ->]; [reflexivity|apply andb_false_r]. }
  rewrite Hno. cbn [app warnings filter].
  rewrite closing_log_not_warning. reflexivity.
Qed.

Lemma X7_no_advisory_within_bounds_witness :
  warnings (logs (snd (run [] (answers 200)
                         (sample_event (PInt 10485760) (PStr "application/pdf"))))) = [].
Proof.
  apply (X7_no_advisory_within_bounds [] (answers 200)
           (sample_event (PInt 10485760) (PStr "application/pdf"))
           sample_id sample_type sample_time
           (sample_body (PInt 10485760) (PStr "application/pdf"))
           10485760 "application/pdf").
  - repeat split; reflexivity.
  - reflexivity.
  - reflexivity.
  - reflexivity.
  - reflexivity.
  - right. reflexivity.
  - lia.
Defined.

(** ** Further properties: which sizes are forwarded *)





(** ** Further properties: invocations only append *)



















